(** * Synthetic regression data: generation and publication

    A shallow embedding of [synthetic_data_generation.py] (stage 3 of the
    pipeline): [generate_dataset] draws a linear-model sample with Gaussian
    noise and keeps the rows with [y >= 0]; [persist_dataset] writes the
    table as CSV and uploads it to an S3 bucket, tolerating [ClientError].

    Numbers are IEEE 754 binary64 values (numpy's [float64]), modelled by
    the primitive type [float].  The random source, the clock, the local
    file system, the standard output and the storage service form an
    explicit [World] that every effectful operation threads through. *)

From Stdlib Require Import ZArith List Bool Lia Floats.
From Stdlib Require Import Ascii String DecimalString Sorted.
From stdpp Require Import base strings list gmap.

Local Open Scope Z_scope.
Set Warnings "-abstract-large-number".

(* ===================================================================== *)
(** ** Exceptions *)
(* ===================================================================== *)

(** The exception classes that the calls of the script can raise.
    [ClientError] is [botocore.exceptions.ClientError]; the service error
    code distinguishes what the storage service rejected. *)
Inductive exn : Type :=
| ValueError (msg : string)
| TypeError (msg : string)
| UndefinedVariableError (name : string)
| OSError (msg : string)
| ClientError (code : string)
| S3UploadFailedError (msg : string)
| NoCredentialsError
| EndpointConnectionError (url : string).

(** [isinstance(e, ClientError)]. *)
Definition is_ClientError (e : exn) : bool :=
  match e with
  | ClientError _ => true
  | _ => false
  end.

(* ===================================================================== *)
(** ** Dates *)
(* ===================================================================== *)

Record Date : Type := mkDate { year : nat; month : nat; day : nat }.

(** Decimal digits of [n], left-padded with zeros to [width] characters
    (the [%0<width>d] of [date.isoformat]). *)
Definition zfill (width : nat) (n : nat) : string :=
  let digits := NilZero.string_of_uint (Nat.to_uint n) in
  String.concat "" (replicate (width - String.length digits)%nat "0")
  +:+ digits.

(** [str(d)] for a [datetime.date]: ISO format [YYYY-MM-DD]. *)
Definition str_date (d : Date) : string :=
  zfill 4 (year d) +:+ "-" +:+ zfill 2 (month d) +:+ "-" +:+ zfill 2 (day d).

(* ===================================================================== *)
(** ** The world *)
(* ===================================================================== *)

(** The process-wide random source [np.random], seen as the values its
    samplers are going to return: [uniform_src i] is the [i]-th value that
    [np.random.uniform(0, 100, _)] still has to deliver and [normal_src i]
    the [i]-th value of [np.random.normal(0, 1, _)]. *)
Record RandomState : Type := mkRandomState {
  uniform_src : nat -> float;
  normal_src : nat -> float
}.

Record World : Type := mkWorld {
  today : Date;                          (* what [date.today()] returns *)
  rng : RandomState;                     (* [np.random] *)
  files : gmap string string;            (* local files: name to contents *)
  stdout : list string;                  (* lines printed so far *)
  s3_objects : gmap (string * string) string;   (* (bucket, key) to body *)
  s3_requests : list (string * string * string);(* uploads attempted:
                                                   (file, bucket, key) *)
  disk_fault : option exn;               (* raised by a file write, if any *)
  s3_client_fault : option exn;          (* raised by [boto3.client] *)
  s3_upload_fault : option exn           (* raised by [upload_file] *)
}.

(* ===================================================================== *)
(** ** State and exception monad *)
(* ===================================================================== *)

Inductive result (A : Type) : Type :=
| Ok (a : A)
| Raise (e : exn).
Arguments Ok {A} a.
Arguments Raise {A} e.

Definition M (A : Type) : Type := World -> result A * World.

Definition ret {A : Type} (a : A) : M A := fun w => (Ok a, w).

Definition raise {A : Type} (e : exn) : M A := fun w => (Raise e, w).

Definition bind {A B : Type} (c : M A) (k : A -> M B) : M B :=
  fun w =>
    match c w with
    | (Ok a, w') => k a w'
    | (Raise e, w') => (Raise e, w')
    end.

Notation "x <- c ;; k" := (bind c (fun x => k))
  (at level 100, c at next level, right associativity).
Notation "c ;;; k" := (bind c (fun _ => k))
  (at level 100, right associativity).

(** [try: body except <cls>: handler], where [catches e] says whether [e]
    is an instance of the class named by the [except] clause.  Effects of
    [body] performed before the exception stay in the world. *)
Definition try_except {A : Type} (body : M A) (catches : exn -> bool)
    (handler : M A) : M A :=
  fun w =>
    match body w with
    | (Ok a, w') => (Ok a, w')
    | (Raise e, w') => if catches e then handler w' else (Raise e, w')
    end.

(** [print(line)]. *)
Definition print (line : string) : M unit :=
  fun w =>
    (Ok tt,
     mkWorld (today w) (rng w) (files w) (stdout w ++ [line]) (s3_objects w)
             (s3_requests w) (disk_fault w) (s3_client_fault w)
             (s3_upload_fault w)).

(** [date.today()]. *)
Definition date_today : M Date := fun w => (Ok (today w), w).

(* ===================================================================== *)
(** ** numpy *)
(* ===================================================================== *)

Definition negative_dimensions : exn :=
  ValueError "negative dimensions are not allowed".

(** [np.full(n, v)]. *)
Definition np_full {A : Type} (n : Z) (v : A) : M (list A) :=
  if n <? 0 then raise negative_dimensions
  else ret (replicate (Z.to_nat n) v).

(** The next [n] values of a source, and the source after them. *)
Definition draw (src : nat -> float) (n : nat) : list float * (nat -> float) :=
  (map src (seq 0 n), fun i => src (n + i)%nat).

Definition set_rng (w : World) (r : RandomState) : World :=
  mkWorld (today w) r (files w) (stdout w) (s3_objects w) (s3_requests w)
          (disk_fault w) (s3_client_fault w) (s3_upload_fault w).

(** [np.random.uniform(low, high, n)]: the values come from the random
    source, which holds them already scaled to [low, high). *)
Definition np_random_uniform (low high : float) (n : Z) : M (list float) :=
  if n <? 0 then raise negative_dimensions
  else fun w =>
    let '(xs, src') := draw (uniform_src (rng w)) (Z.to_nat n) in
    (Ok xs, set_rng w (mkRandomState src' (normal_src (rng w)))).

(** [np.random.normal(loc, scale, n)]. *)
Definition np_random_normal (loc scale : float) (n : Z) : M (list float) :=
  if n <? 0 then raise negative_dimensions
  else fun w =>
    let '(xs, src') := draw (normal_src (rng w)) (Z.to_nat n) in
    (Ok xs, set_rng w (mkRandomState (uniform_src (rng w)) src')).

(** [a * v] and [a + v] for a scalar [a] and an array [v]. *)
Definition np_scalar_mul (a : float) (v : list float) : list float :=
  map (fun x => (a * x)%float) v.

Definition np_scalar_add (a : float) (v : list float) : list float :=
  map (fun x => (a + x)%float) v.

Definition broadcast_error : exn :=
  ValueError "operands could not be broadcast together".

(** [u + v] for two one-dimensional arrays: elementwise when the lengths
    agree, an array of length one is broadcast, anything else is refused. *)
Definition np_add (u v : list float) : M (list float) :=
  if (length u =? length v)%nat then
    ret (zip_with (fun x y => (x + y)%float) u v)
  else
    match u, v with
    | [x], _ => ret (map (fun y => (x + y)%float) v)
    | _, [y] => ret (map (fun x => (x + y)%float) u)
    | _, _ => raise broadcast_error
    end.

(* ===================================================================== *)
(** ** pandas *)
(* ===================================================================== *)

(** A column is an array of strings or an array of floats. *)
Inductive Column : Type :=
| StrCol (l : list string)
| FloatCol (l : list float).

Definition col_length (c : Column) : nat :=
  match c with
  | StrCol l => length l
  | FloatCol l => length l
  end.

(** A table: the row labels and the named columns, in insertion order. *)
Record DataFrame : Type := mkDataFrame {
  df_index : list nat;
  df_columns : list (string * Column)
}.

Definition nrows (df : DataFrame) : nat := length (df_index df).

Fixpoint get_column (name : string) (cols : list (string * Column))
    : option Column :=
  match cols with
  | [] => None
  | (k, c) :: cols' =>
      if String.eqb k name then Some c else get_column name cols'
  end.

(** [pd.DataFrame(data)] for a dict of arrays: the arrays must agree in
    length, and the rows are labelled [0 .. len-1]. *)
Definition pd_DataFrame (data : list (string * Column)) : M DataFrame :=
  match data with
  | [] => ret (mkDataFrame [] [])
  | (_, c) :: _ =>
      if forallb (fun kc => (col_length kc.2 =? col_length c)%nat) data
      then ret (mkDataFrame (seq 0 (col_length c)) data)
      else raise (ValueError "All arrays must be of the same length")
  end.

(** Boolean indexing: the entries of [l] at the positions where [mask]
    holds. *)
Fixpoint mask_select {A : Type} (mask : list bool) (l : list A) : list A :=
  match mask, l with
  | b :: mask', x :: l' =>
      if b then x :: mask_select mask' l' else mask_select mask' l'
  | _, _ => []
  end.

Definition col_select (mask : list bool) (c : Column) : Column :=
  match c with
  | StrCol l => StrCol (mask_select mask l)
  | FloatCol l => FloatCol (mask_select mask l)
  end.

(** [df.query('y >= 0')]: the rows whose [y] is not below zero, with
    their labels.  The comparison is the IEEE one, false on NaN. *)
Definition query_y_ge_0 (df : DataFrame) : M DataFrame :=
  match get_column "y" (df_columns df) with
  | None => raise (UndefinedVariableError "y")
  | Some (StrCol _) =>
      raise (TypeError "'>=' not supported between 'str' and 'int'")
  | Some (FloatCol ys) =>
      let mask := map (fun v => (0 <=? v)%float) ys in
      ret (mkDataFrame
             (mask_select mask (df_index df))
             (map (fun kc => (kc.1, col_select mask kc.2)) (df_columns df)))
  end.

(* ===================================================================== *)
(** ** The generator *)
(* ===================================================================== *)

Definition AWS_S3_BUCKET : string := "bodywork-ml-ops-project".

Definition ALPHA : float := 30%float.
Definition BETA : float := 0.5%float.
Definition SIGMA : float := 10%float.
Definition N : Z := 24 * 60.

(** Create synthetic regression data using linear model with Gaussian
    noise. *)
Definition generate_dataset (alpha beta sigma : float) (n : Z) : M DataFrame :=
  d <- date_today ;;
  datestr <- np_full n (str_date d) ;;
  X <- np_random_uniform 0 100 n ;;
  epsilon <- np_random_normal 0 1 n ;;
  y <- np_add (np_scalar_add alpha (np_scalar_mul beta X))
              (np_scalar_mul sigma epsilon) ;;
  dataset <- pd_DataFrame [("date", StrCol datestr);
                           ("y", FloatCol y);
                           ("X", FloatCol X)] ;;
  query_y_ge_0 dataset.

(* ===================================================================== *)
(** ** CSV output, local files and the storage client *)
(* ===================================================================== *)

Definition dquote : Ascii.ascii := Ascii.ascii_of_nat 34.
Definition newline : string := String (Ascii.ascii_of_nat 10) EmptyString.

(** [csv.QUOTE_MINIMAL]: a field is quoted when it holds the delimiter,
    the quote character or a line break; quotes inside it are doubled. *)
Definition needs_quoting (s : string) : bool :=
  existsb (fun c => bool_decide (c ∈ [","%char; dquote; Ascii.ascii_of_nat 10;
                                      Ascii.ascii_of_nat 13]))
          (String.list_ascii_of_string s).

Fixpoint double_quotes (s : string) : string :=
  match s with
  | EmptyString => EmptyString
  | String c s' =>
      if Ascii.eqb c dquote then String c (String c (double_quotes s'))
      else String c (double_quotes s')
  end.

Definition csv_str (s : string) : string :=
  if needs_quoting s
  then String dquote (double_quotes s) +:+ String dquote EmptyString
  else s.

(** A data line or the header line: the fields separated by commas. *)
Definition csv_line (fields : list string) : string :=
  String.concat "," fields +:+ newline.

Definition str_nat (i : nat) : string := NilZero.string_of_uint (Nat.to_uint i).

Section Publisher.

(** The decimal text pandas writes for a float that is not NaN (the
    shortest text that reads back as the same float). *)
Variable float_repr : float -> string.

(** A missing value (NaN) is written as the empty field. *)
Definition csv_float (v : float) : string :=
  if is_nan v then EmptyString else float_repr v.

(** The field of column [c] in the row at position [i]. *)
Definition csv_cell (c : Column) (i : nat) : string :=
  match c with
  | StrCol l => csv_str (nth i l EmptyString)
  | FloatCol l => csv_float (nth i l nan)
  end.

(** The text of [df.to_csv(header=..., index=...)]. *)
Definition csv_text (df : DataFrame) (header index : bool) : string :=
  (if header
   then csv_line ((if index then [EmptyString] else []) ++
                  map (fun kc => csv_str kc.1) (df_columns df))
   else EmptyString) +:+
  String.concat ""
    (map (fun i =>
            csv_line ((if index then [str_nat (nth i (df_index df) O)]
                       else []) ++
                      map (fun kc => csv_cell kc.2 i) (df_columns df)))
         (seq 0 (nrows df))).

(** Create or overwrite a local file. *)
Definition write_file (path body : string) : M unit :=
  fun w =>
    match disk_fault w with
    | Some e => (Raise e, w)
    | None =>
        (Ok tt,
         mkWorld (today w) (rng w) (<[path := body]> (files w)) (stdout w)
                 (s3_objects w) (s3_requests w) (disk_fault w)
                 (s3_client_fault w) (s3_upload_fault w))
    end.

(** [df.to_csv(path, header=header, index=index)]. *)
Definition to_csv (df : DataFrame) (path : string) (header index : bool)
    : M unit :=
  write_file path (csv_text df header index).

(** [boto3.client(service)]. *)
Definition aws_client (service : string) : M unit :=
  fun w =>
    match s3_client_fault w with
    | Some e => (Raise e, w)
    | None => (Ok tt, w)
    end.

(** [s3_client.upload_file(filename, bucket, key)]: the request is
    made with the contents of the local file; the service stores the
    object unless it fails. *)
Definition upload_file (filename bucket key : string) : M unit :=
  fun w =>
    let w1 :=
      mkWorld (today w) (rng w) (files w) (stdout w) (s3_objects w)
              (s3_requests w ++ [(filename, bucket, key)]) (disk_fault w)
              (s3_client_fault w) (s3_upload_fault w) in
    match files w !! filename with
    | None => (Raise (OSError "No such file or directory"), w1)
    | Some body =>
        match s3_upload_fault w with
        | Some e => (Raise e, w1)
        | None =>
            (Ok tt,
             mkWorld (today w1) (rng w1) (files w1) (stdout w1)
                     (<[(bucket, key) := body]> (s3_objects w1))
                     (s3_requests w1) (disk_fault w1) (s3_client_fault w1)
                     (s3_upload_fault w1))
        end
    end.

(** Upload dataset metrics to AWS S3. *)
Definition persist_dataset (dataset : DataFrame) (aws_bucket : string)
    : M unit :=
  data_date <- date_today ;;
  let dataset_filename :=
    "regression-dataset-" +:+ str_date data_date +:+ ".csv" in
  to_csv dataset dataset_filename true false ;;;
  try_except
    (s3_client <- aws_client "s3" ;;
     upload_file dataset_filename aws_bucket
                 ("datasets/" +:+ dataset_filename) ;;;
     print ("uploaded " +:+ dataset_filename +:+ " to s3://" +:+
            aws_bucket +:+ "/datasets/"))
    is_ClientError
    (print "could not upload dataset to S3 - check AWS credentials").

(** Main script to be executed. *)
Definition main : M unit :=
  dataset <- generate_dataset ALPHA BETA SIGMA N ;;
  persist_dataset dataset AWS_S3_BUCKET.

End Publisher.

(* ===================================================================== *)
(** ** Row-wise description of the generated table *)
(* ===================================================================== *)

(** The uniform draw, the noise draw and the response of row [i]. *)
Definition X_row (w : World) (i : nat) : float := uniform_src (rng w) i.

Definition eps_row (w : World) (i : nat) : float := normal_src (rng w) i.

Definition y_row (alpha beta sigma : float) (w : World) (i : nat) : float :=
  (alpha + beta * X_row w i + sigma * eps_row w i)%float.

(** The labels of the rows that satisfy [y >= 0], in draw order. *)
Definition kept_rows (alpha beta sigma : float) (n : nat) (w : World)
    : list nat :=
  List.filter (fun i => (0 <=? y_row alpha beta sigma w i)%float) (seq 0 n).

(** The table described row by row: one row per kept label. *)
Definition dataset_of_rows (alpha beta sigma : float) (w : World)
    (rows : list nat) : DataFrame :=
  mkDataFrame rows
    [("date", StrCol (map (fun _ => str_date (today w)) rows));
     ("y", FloatCol (map (y_row alpha beta sigma w) rows));
     ("X", FloatCol (map (X_row w) rows))].

(** The world once [n] uniform and [n] normal values have been drawn. *)
Definition after_draws (w : World) (n : nat) : World :=
  set_rng w (mkRandomState (fun i => uniform_src (rng w) (n + i)%nat)
                           (fun i => normal_src (rng w) (n + i)%nat)).

(** A random source that delivers the values of a list, then [d] (the
    random source replaced by fixed draws, as a test does). *)
Definition tape (l : list float) (d : float) : nat -> float :=
  fun i => nth i l d.

Definition fixed_draws (X epsilon : list float) : RandomState :=
  mkRandomState (tape X 50%float) (tape epsilon 0%float).

(** A world with no files, nothing printed, an empty bucket store and no
    faults, on the given day and with the given random source. *)
Definition quiet_world (d : Date) (r : RandomState) : World :=
  mkWorld d r ∅ [] ∅ [] None None None.

Definition with_upload_fault (w : World) (e : exn) : World :=
  mkWorld (today w) (rng w) (files w) (stdout w) (s3_objects w)
          (s3_requests w) (disk_fault w) (s3_client_fault w) (Some e).

Definition with_client_fault (w : World) (e : exn) : World :=
  mkWorld (today w) (rng w) (files w) (stdout w) (s3_objects w)
          (s3_requests w) (disk_fault w) (Some e) (s3_upload_fault w).

Definition with_disk_fault (w : World) (e : exn) : World :=
  mkWorld (today w) (rng w) (files w) (stdout w) (s3_objects w)
          (s3_requests w) (Some e) (s3_client_fault w) (s3_upload_fault w).

(** The draws and worlds used in the examples below. *)
Definition scenario_world : World :=
  quiet_world (mkDate 2021 3 7)
    (fixed_draws [(-1)%float; 0%float; 1%float; 2%float; 3%float]
                 [0.5%float; (-0.25)%float; 1.5%float; 0%float; (-2)%float]).

Definition sample_world : World :=
  quiet_world (mkDate 2021 3 7)
    (fixed_draws [10%float; 0%float; 99.5%float]
                 [0.5%float; (-1.25)%float; 2%float]).

Definition next_day_world : World :=
  quiet_world (mkDate 2021 3 8)
    (fixed_draws [(-1)%float; 0%float; 1%float; 2%float; 3%float]
                 [0.5%float; (-0.25)%float; 1.5%float; 0%float; (-2)%float]).

Definition overflow_world : World :=
  quiet_world (mkDate 2021 3 7) (fixed_draws [2%float] [(-2)%float]).

Definition zero_draw_world : World :=
  quiet_world (mkDate 2021 3 7) (fixed_draws [0%float] [0%float]).

(** The table with the three columns and no rows. *)
Definition empty_dataset : DataFrame :=
  mkDataFrame [] [("date", StrCol []); ("y", FloatCol []); ("X", FloatCol [])].

(** The table of the four-row scenario, as the publisher receives it. *)
Definition scenario_dataset : DataFrame :=
  mkDataFrame [1; 2; 3; 4]%nat
    [("date", StrCol (replicate 4 "2021-03-07"));
     ("y", FloatCol [0%float; 1%float; 2%float; 3%float]);
     ("X", FloatCol [0%float; 1%float; 2%float; 3%float])].

(** Python's [repr] on the floats with an integral value ([0.0], [1.0],
    [-3.0], ...), which is all the examples write; it stands in for the
    printer of the other values, which the properties leave open. *)
Definition integral_repr (v : float) : string :=
  let text (s : bool) (k : Z) :=
    (if s then "-" else "") +:+ str_nat (Z.to_nat k) +:+ ".0" in
  match Prim2SF v with
  | S754_zero s => text s 0
  | S754_finite s m e =>
      if 0 <=? e then text s (Z.pos m * 2 ^ e)
      else if Z.pos m mod 2 ^ (- e) =? 0 then text s (Z.pos m / 2 ^ (- e))
      else "?"
  | S754_infinity s => if s then "-inf" else "inf"
  | S754_nan => "nan"
  end.

(** The name of the local file written on the day of [w], and the two
    notices. *)
Definition dataset_filename (w : World) : string :=
  "regression-dataset-" +:+ str_date (today w) +:+ ".csv".

Definition upload_warning : string :=
  "could not upload dataset to S3 - check AWS credentials".

(** The largest finite binary64 value. *)
Definition max_float : float := 0x1.fffffffffffffp+1023%float.

(* ===================================================================== *)
(** ** Classes of binary64 values *)
(* ===================================================================== *)

(** Zero of either sign, a positive finite value or plus infinity: the
    values [v] with [v >= 0]. *)
Definition sf_nonneg (x : spec_float) : bool :=
  match x with
  | S754_zero _ => true
  | S754_infinity s => negb s
  | S754_finite s _ _ => negb s
  | S754_nan => false
  end.

(** Neither NaN nor an infinity. *)
Definition sf_finite (x : spec_float) : bool :=
  match x with
  | S754_zero _ | S754_finite _ _ _ => true
  | _ => false
  end.

(** A calendar date as [datetime.date] admits it. *)
Definition valid_date (d : Date) : Prop :=
  (1 <= year d <= 9999)%nat /\ (1 <= month d <= 12)%nat /\
  (1 <= day d <= 31)%nat.

(** The number a string of decimal digits denotes. *)
Definition digit_value (c : Ascii.ascii) : nat := (Ascii.nat_of_ascii c - 48)%nat.

Fixpoint digits_value_from (acc : nat) (s : string) : nat :=
  match s with
  | EmptyString => acc
  | String c s' => digits_value_from (10 * acc + digit_value c)%nat s'
  end.

Definition digits_value (s : string) : nat := digits_value_from 0 s.

(** The remote key under which the file of the day of [w] is stored. *)
Definition dataset_key (w : World) : string :=
  "datasets/" +:+ dataset_filename w.

(** The outcome of a publication in the world [w]: the first fault met
    is raised, unless it is a [ClientError] met inside the [try] block. *)
Definition publication_outcome (w : World) : result unit :=
  match disk_fault w with
  | Some e => Raise e
  | None =>
      match s3_client_fault w with
      | Some e => if is_ClientError e then Ok tt else Raise e
      | None =>
          match s3_upload_fault w with
          | Some e => if is_ClientError e then Ok tt else Raise e
          | None => Ok tt
          end
      end
  end.

(** A world in which a file and an object of an earlier day exist. *)
Definition used_world : World :=
  mkWorld (mkDate 2021 3 7)
    (fixed_draws [10%float; 0%float; 99.5%float]
                 [0.5%float; (-1.25)%float; 2%float])
    {["regression-dataset-2021-03-06.csv" := "date,y,X"]} ["started"]
    {[("bodywork-ml-ops-project",
       "datasets/regression-dataset-2021-03-06.csv") := "date,y,X"]}
    [] None None None.

(* ===================================================================== *)
(** ** Arrays and boolean indexing *)
(* ===================================================================== *)

Lemma mask_select_map {A B : Type} (p : A -> bool) (g : A -> B) (l : list A) :
  mask_select (map p l) (map g l) = map g (List.filter p l).
Proof.
  induction l as [|a l IH]; simpl; [reflexivity|].
  destruct (p a); simpl; now rewrite IH.
Qed.

Lemma mask_select_filter {A : Type} (p : A -> bool) (l : list A) :
  mask_select (map p l) l = List.filter p l.
Proof.
  rewrite <- (map_id l) at 2. rewrite mask_select_map. apply map_id.
Qed.

Lemma zip_with_map_map {A B C D : Type} (f : B -> C -> D) (g : A -> B)
    (h : A -> C) (l : list A) :
  zip_with f (map g l) (map h l) = map (fun a => f (g a) (h a)) l.
Proof.
  induction l as [|a l IH]; simpl; [reflexivity|]. now rewrite IH.
Qed.

Lemma replicate_map_seq {A : Type} (n : nat) (a : A) (s : nat) :
  replicate n a = map (fun _ => a) (seq s n).
Proof.
  revert s. induction n as [|n IH]; intros s; simpl; [reflexivity|].
  now rewrite <- IH.
Qed.

Lemma filter_length_le {A : Type} (p : A -> bool) (l : list A) :
  (length (List.filter p l) <= length l)%nat.
Proof.
  induction l as [|a l IH]; simpl; [lia|]. destruct (p a); simpl; lia.
Qed.

Lemma filter_all {A : Type} (p : A -> bool) (l : list A) :
  (forall a, In a l -> p a = true) -> List.filter p l = l.
Proof.
  induction l as [|a l IH]; simpl; intros H; [reflexivity|].
  rewrite (H a) by now left. f_equal. apply IH. intros b Hb. apply H. now right.
Qed.

(* ===================================================================== *)
(** ** The generator, row by row *)
(* ===================================================================== *)

(** For a row count that is not negative the generator returns the table
    of the kept rows and leaves the random source after both draws. *)
Lemma generate_dataset_rows (alpha beta sigma : float) (n : Z) (w : World) :
  0 <= n ->
  generate_dataset alpha beta sigma n w =
    (Ok (dataset_of_rows alpha beta sigma w
           (kept_rows alpha beta sigma (Z.to_nat n) w)),
     after_draws w (Z.to_nat n)).
Proof.
  intros Hn.
  assert (Hneg : (n <? 0) = false) by (apply Z.ltb_ge; exact Hn).
  unfold generate_dataset, bind, date_today, np_full, np_random_uniform,
    np_random_normal. rewrite Hneg.
  cbn [ret draw set_rng rng uniform_src normal_src today].
  unfold np_add, np_scalar_add, np_scalar_mul.
  rewrite !length_map, !length_seq, Nat.eqb_refl.
  cbn [ret pd_DataFrame forallb snd col_length].
  rewrite !length_map, !length_seq.
  rewrite !map_map, zip_with_map_map.
  rewrite length_replicate, !length_map, !length_seq, !Nat.eqb_refl.
  cbn [andb ret].
  unfold query_y_ge_0.
  cbn [df_columns get_column String.eqb Ascii.eqb Bool.eqb].
  cbn [ret df_index df_columns map fst snd col_select].
  rewrite (replicate_map_seq _ _ 0).
  rewrite !map_map, !mask_select_map, mask_select_filter.
  reflexivity.
Qed.

(** The script on fixed draws. *)
Example generate_dataset_sample :
  (generate_dataset 30 0.5 10 3 sample_world).1 =
  Ok (mkDataFrame [0; 1; 2]%nat
        [("date", StrCol ["2021-03-07"; "2021-03-07"; "2021-03-07"]);
         ("y", FloatCol [40%float; 17.5%float; 99.75%float]);
         ("X", FloatCol [10%float; 0%float; 99.5%float])]).
Proof. vm_compute. reflexivity. Qed.

Example str_date_pads : str_date (mkDate 987 5 31) = "0987-05-31".
Proof. reflexivity. Qed.

Example main_uploads :
  let r := main integral_repr scenario_world in
  r.1 = Ok tt /\
  stdout r.2 =
    ["uploaded regression-dataset-2021-03-07.csv to " +:+
     "s3://bodywork-ml-ops-project/datasets/"] /\
  s3_requests r.2 =
    [("regression-dataset-2021-03-07.csv", "bodywork-ml-ops-project",
      "datasets/regression-dataset-2021-03-07.csv")].
Proof. vm_compute. repeat split. Qed.

Example main_disk_full :
  (main integral_repr
        (with_disk_fault scenario_world (OSError "No space left on device"))).1 =
  Raise (OSError "No space left on device").
Proof. vm_compute. reflexivity. Qed.

Example main_no_credentials :
  let r :=
    main integral_repr (with_client_fault scenario_world NoCredentialsError) in
  r.1 = Raise NoCredentialsError /\ stdout r.2 = [].
Proof. vm_compute. split; reflexivity. Qed.

(* ===================================================================== *)
(** ** Signs under binary64 rounding *)
(* ===================================================================== *)

Lemma leb_zero_spec (x : float) : (0 <=? x)%float = sf_nonneg (Prim2SF x).
Proof.
  rewrite FloatAxioms.leb_spec. change (Prim2SF 0) with (S754_zero false).
  destruct (Prim2SF x) as [s|s| |s m e]; try destruct s; reflexivity.
Qed.

Lemma SFcompare_finite_refl (s : bool) (m : positive) (e : Z) :
  SFcompare (S754_finite s m e) (S754_finite s m e) = Some Eq.
Proof.
  simpl. rewrite Z.compare_refl.
  assert (H : Pos.compare_cont Eq m m = Eq) by apply Pos.compare_refl.
  rewrite H. destruct s; reflexivity.
Qed.

Lemma is_finite_spec (x : float) : is_finite x = sf_finite (Prim2SF x).
Proof.
  unfold is_finite, is_nan, is_infinity.
  rewrite !FloatAxioms.eqb_spec, FloatAxioms.abs_spec.
  change (Prim2SF infinity) with (S754_infinity false).
  destruct (Prim2SF x) as [s|s| |s m e]; try reflexivity.
  - destruct s; reflexivity.
  - unfold SFeqb. rewrite SFcompare_finite_refl. reflexivity.
Qed.

Lemma is_nan_spec (x : float) :
  is_nan x = match Prim2SF x with S754_nan => true | _ => false end.
Proof.
  unfold is_nan. rewrite FloatAxioms.eqb_spec.
  destruct (Prim2SF x) as [s|s| |s m e]; try reflexivity.
  - destruct s; reflexivity.
  - unfold SFeqb. rewrite SFcompare_finite_refl. reflexivity.
Qed.

(** [y >= 0] fails exactly when [y < 0] or [y] is NaN. *)
Lemma leb_zero_false (y : float) :
  (0 <=? y)%float = false <-> (y <? 0)%float = true \/ is_nan y = true.
Proof.
  rewrite leb_zero_spec, FloatAxioms.ltb_spec, is_nan_spec.
  change (Prim2SF 0) with (S754_zero false).
  destruct (Prim2SF y) as [s|s| |s m e]; try destruct s; cbn;
    intuition congruence.
Qed.

Lemma eqb_zero_spec (x : float) :
  (x =? 0)%float = true -> exists s, Prim2SF x = S754_zero s.
Proof.
  rewrite FloatAxioms.eqb_spec. change (Prim2SF 0) with (S754_zero false).
  destruct (Prim2SF x) as [s|s| |s m e]; try destruct s; try discriminate;
    eauto.
Qed.

Lemma iter_pos_invariant {A : Type} (P : A -> Prop) (f : A -> A) :
  (forall a, P a -> P (f a)) -> forall n a, P a -> P (SpecFloat.iter_pos f n a).
Proof.
  intros Hf. induction n as [n IH|n IH|]; intros a Ha; simpl; auto.
Qed.

Lemma shr_1_nonneg (mrs : shr_record) :
  0 <= shr_m mrs -> 0 <= shr_m (shr_1 mrs).
Proof.
  destruct mrs as [m r s]. simpl. destruct m as [|p|p]; simpl; try lia.
  destruct p; simpl; lia.
Qed.

Lemma shr_nonneg (mrs : shr_record) (e n : Z) :
  0 <= shr_m mrs -> 0 <= shr_m (fst (shr mrs e n)).
Proof.
  intros H. destruct n; simpl; auto.
  apply iter_pos_invariant with (P := fun r => 0 <= shr_m r);
    auto using shr_1_nonneg.
Qed.

Lemma shr_record_of_loc_m (m : Z) (l : location) :
  shr_m (shr_record_of_loc m l) = m.
Proof. destruct l as [|[]]; reflexivity. Qed.

Lemma shr_fexp_nonneg (p q m e : Z) (l : location) :
  0 <= m -> 0 <= shr_m (fst (shr_fexp p q m e l)).
Proof.
  intros H. unfold shr_fexp. apply shr_nonneg.
  now rewrite shr_record_of_loc_m.
Qed.

Lemma round_nearest_even_nonneg (m : Z) (l : location) :
  0 <= m -> 0 <= round_nearest_even m l.
Proof.
  intros H. destruct l as [|[]]; simpl; try lia. destruct (Z.even m); lia.
Qed.

(** Rounding a magnitude keeps the sign it is given and never gives NaN. *)
Lemma binary_round_aux_sign (p q : Z) (s : bool) (m e : Z) (l : location) :
  0 <= m ->
  match binary_round_aux p q s m e l with
  | S754_zero s' | S754_infinity s' | S754_finite s' _ _ => s' = s
  | S754_nan => False
  end.
Proof.
  intros H. unfold binary_round_aux.
  pose proof (shr_fexp_nonneg p q m e l H) as H1.
  destruct (shr_fexp p q m e l) as [mrs' e']. simpl in H1.
  pose proof (shr_fexp_nonneg p q _ e' loc_Exact
                (round_nearest_even_nonneg _ (loc_of_shr_record mrs') H1))
    as H2.
  destruct (shr_fexp p q _ e' loc_Exact) as [mrs'' e'']. simpl in H2.
  destruct (shr_m mrs'') as [|m''|m'']; try reflexivity; try lia.
  destruct (e'' <=? q - p); reflexivity.
Qed.

Lemma binary_round_aux_nonneg (p q m e : Z) (l : location) :
  0 <= m -> sf_nonneg (binary_round_aux p q false m e l) = true.
Proof.
  intros H. pose proof (binary_round_aux_sign p q false m e l H) as Hs.
  destruct (binary_round_aux p q false m e l);
    try (subst; reflexivity). contradiction.
Qed.

Lemma SFmul_nonneg (p q : Z) (x y : spec_float) :
  sf_nonneg x = true -> sf_nonneg y = true ->
  sf_finite x = true -> sf_finite y = true ->
  sf_nonneg (SFmul p q x y) = true.
Proof.
  destruct x as [sx|sx| |sx mx ex], y as [sy|sy| |sy my ey]; simpl;
    try discriminate; try reflexivity.
  intros Hx Hy _ _. destruct sx, sy; try discriminate. simpl.
  apply binary_round_aux_nonneg. lia.
Qed.

Lemma SFadd_nonneg (p q : Z) (x y : spec_float) :
  sf_nonneg x = true -> sf_nonneg y = true ->
  sf_nonneg (SFadd p q x y) = true.
Proof.
  destruct x as [sx|sx| |sx mx ex], y as [sy|sy| |sy my ey]; simpl;
    try discriminate;
    try (destruct sx; try discriminate);
    try (destruct sy; try discriminate); try reflexivity.
  intros _ _. simpl. unfold binary_round.
  destruct (shl_align _ _ _) as [mz ez]. apply binary_round_aux_nonneg. lia.
Qed.

Lemma SFmul_zero_finite (p q : Z) (x y : spec_float) :
  (exists s, x = S754_zero s) -> sf_finite y = true ->
  exists s, SFmul p q x y = S754_zero s.
Proof.
  intros [s ->]. destruct y; simpl; try discriminate; eauto.
Qed.

Lemma SFadd_zero_r (p q : Z) (x : spec_float) (s : bool) :
  x <> S754_zero true -> SFadd p q x (S754_zero s) = x.
Proof.
  destruct x as [sx|sx| |sx mx ex]; simpl; try reflexivity.
  destruct sx, s; try reflexivity. congruence.
Qed.

(** The same facts on [float]. *)
Lemma mul_nonneg (b x : float) :
  (0 <=? b)%float = true -> is_finite b = true ->
  (0 <=? x)%float = true -> is_finite x = true ->
  (0 <=? b * x)%float = true.
Proof.
  rewrite !leb_zero_spec, !is_finite_spec, FloatAxioms.mul_spec.
  intros Hb Fb Hx Fx.
  now apply SFmul_nonneg.
Qed.

Lemma add_nonneg (a t : float) :
  (0 <=? a)%float = true -> (0 <=? t)%float = true ->
  (0 <=? a + t)%float = true.
Proof.
  rewrite !leb_zero_spec, FloatAxioms.add_spec. apply SFadd_nonneg.
Qed.

Lemma mul_zero_finite (s e : float) :
  (s =? 0)%float = true -> is_finite e = true ->
  exists sg, Prim2SF (s * e)%float = S754_zero sg.
Proof.
  intros Hs He. rewrite FloatAxioms.mul_spec. apply SFmul_zero_finite.
  - now apply eqb_zero_spec.
  - now rewrite <- is_finite_spec.
Qed.

Lemma add_zero_r (v z : float) (s : bool) :
  Prim2SF v <> S754_zero true -> Prim2SF z = S754_zero s ->
  (v + z)%float = v.
Proof.
  intros Hv Hz. apply Prim2SF_inj. rewrite FloatAxioms.add_spec, Hz.
  now apply SFadd_zero_r.
Qed.

Lemma below_100_finite (x : float) :
  (0 <=? x)%float = true -> (x <? 100)%float = true -> is_finite x = true.
Proof.
  rewrite leb_zero_spec, FloatAxioms.ltb_spec, is_finite_spec.
  assert (H100 : Prim2SF 100 = S754_finite false 7036874417766400 (-46))
    by reflexivity.
  rewrite H100.
  destruct (Prim2SF x) as [s|s| |s m e]; try reflexivity; try discriminate.
  destruct s; discriminate.
Qed.

(* ===================================================================== *)
(** ** Properties of the generator *)
(* ===================================================================== *)

Lemma generate_dataset_negative (alpha beta sigma : float) (n : Z) (w : World) :
  n < 0 ->
  generate_dataset alpha beta sigma n w = (Raise negative_dimensions, w).
Proof.
  intros Hn. apply Z.ltb_lt in Hn.
  unfold generate_dataset, bind, date_today, np_full. now rewrite Hn.
Qed.

Lemma kept_rows_nonneg (alpha beta sigma : float) (n : nat) (w : World)
    (i : nat) :
  In i (kept_rows alpha beta sigma n w) <->
  (i < n)%nat /\ (0 <=? y_row alpha beta sigma w i)%float = true.
Proof.
  unfold kept_rows. rewrite List.filter_In, in_seq. intuition lia.
Qed.

Lemma kept_rows_length (alpha beta sigma : float) (n : nat) (w : World) :
  (length (kept_rows alpha beta sigma n w) <= n)%nat.
Proof.
  unfold kept_rows.
  pose proof (filter_length_le
                (fun i => (0 <=? y_row alpha beta sigma w i)%float) (seq 0 n)).
  now rewrite length_seq in H.
Qed.

(** C1. For every input with [n > 0] the generator returns a table with at
    most [n] rows; its three columns [date], [y] and [X] have the same
    length, the number of rows; and every [y] kept satisfies [y >= 0]. *)
Theorem generate_dataset_bounded_nonneg
    (alpha beta sigma : float) (n : Z) (w : World) :
  0 < n ->
  exists (df : DataFrame) (w' : World)
         (dates : list string) (ys xs : list float),
    generate_dataset alpha beta sigma n w = (Ok df, w') /\
    df_columns df =
      [("date", StrCol dates); ("y", FloatCol ys); ("X", FloatCol xs)] /\
    Z.of_nat (nrows df) <= n /\
    Forall (fun y => (0 <=? y)%float = true) ys /\
    length xs = length ys /\
    length ys = length dates /\
    length dates = nrows df.
Proof.
  intros Hn. rewrite generate_dataset_rows by lia.
  do 5 eexists. split; [reflexivity|]. split; [reflexivity|].
  unfold nrows. cbn [dataset_of_rows df_index].
  rewrite !length_map. repeat split.
  - pose proof (kept_rows_length alpha beta sigma (Z.to_nat n) w). lia.
  - apply List.Forall_map, List.Forall_forall. intros i Hi.
    now apply kept_rows_nonneg in Hi.
Qed.

Lemma generate_dataset_bounded_nonneg_witness :
  exists (df : DataFrame) (w' : World)
         (dates : list string) (ys xs : list float),
    generate_dataset 0 1 0 5 scenario_world = (Ok df, w') /\
    df_columns df =
      [("date", StrCol dates); ("y", FloatCol ys); ("X", FloatCol xs)] /\
    Z.of_nat (nrows df) <= 5 /\
    Forall (fun y => (0 <=? y)%float = true) ys /\
    length xs = length ys /\
    length ys = length dates /\
    length dates = nrows df.
Proof.
  apply (generate_dataset_bounded_nonneg 0 1 0 5 scenario_world). lia.
Defined.

(** C3 (amended). Seen as a function of its parameters and of the [n]
    uniform and [n] normal draws, the generator computes
    [y = alpha + beta * X + sigma * epsilon] for each row, stamps every
    row with today's date and keeps exactly the rows with [y >= 0]: a row
    is dropped when [y < 0] and also when [y] is NaN.  Every row kept
    carries the [y] and [X] of its own draws. *)
Theorem generate_dataset_keeps_nonneg_rows
    (alpha beta sigma : float) (n : Z) (w : World) :
  0 <= n ->
  let kept := kept_rows alpha beta sigma (Z.to_nat n) w in
  generate_dataset alpha beta sigma n w =
    (Ok (mkDataFrame kept
           [("date", StrCol (map (fun _ => str_date (today w)) kept));
            ("y", FloatCol (map (fun i =>
                      (alpha + beta * uniform_src (rng w) i +
                       sigma * normal_src (rng w) i)%float) kept));
            ("X", FloatCol (map (uniform_src (rng w)) kept))]),
     after_draws w (Z.to_nat n)) /\
  forall i : nat, (i < Z.to_nat n)%nat ->
    (In i kept <-> (0 <=? y_row alpha beta sigma w i)%float = true) /\
    (~ In i kept <->
       (y_row alpha beta sigma w i <? 0)%float = true \/
       is_nan (y_row alpha beta sigma w i) = true).
Proof.
  intros Hn kept. split.
  - now rewrite generate_dataset_rows.
  - intros i Hi. unfold kept. rewrite kept_rows_nonneg.
    rewrite <- leb_zero_false. split; [intuition|].
    destruct (0 <=? y_row alpha beta sigma w i)%float; intuition congruence.
Qed.

Lemma generate_dataset_keeps_nonneg_rows_witness :
  let kept := kept_rows 0 1 0 (Z.to_nat 5) scenario_world in
  generate_dataset 0 1 0 5 scenario_world =
    (Ok (mkDataFrame kept
           [("date", StrCol (map (fun _ => str_date (today scenario_world)) kept));
            ("y", FloatCol (map (fun i =>
                      (0 + 1 * uniform_src (rng scenario_world) i +
                       0 * normal_src (rng scenario_world) i)%float) kept));
            ("X", FloatCol (map (uniform_src (rng scenario_world)) kept))]),
     after_draws scenario_world (Z.to_nat 5)) /\
  forall i : nat, (i < Z.to_nat 5)%nat ->
    (In i kept <-> (0 <=? y_row 0 1 0 scenario_world i)%float = true) /\
    (~ In i kept <->
       (y_row 0 1 0 scenario_world i <? 0)%float = true \/
       is_nan (y_row 0 1 0 scenario_world i) = true).
Proof.
  apply (generate_dataset_keeps_nonneg_rows 0 1 0 5 scenario_world). lia.
Defined.

(** C3 as worded fails: with finite parameters the sum can overflow to
    [inf + -inf], a NaN; that row is dropped although [y < 0] is false. *)
Lemma generate_dataset_drops_nan_row :
  (generate_dataset 0 max_float max_float 1 overflow_world).1 = Ok empty_dataset /\
  (y_row 0 max_float max_float overflow_world 0 <? 0)%float = false /\
  is_nan (y_row 0 max_float max_float overflow_world 0) = true.
Proof. repeat split; vm_compute; reflexivity. Qed.

(** C7. A negative row count is refused at once: the first array
    construction raises [ValueError], nothing is drawn from the random
    source and no table is returned.  Whenever a table is returned the
    row count was not negative and the table is well formed: the columns
    [date], [y], [X], each as long as the table has rows. *)
Theorem generate_dataset_rejects_negative
    (alpha beta sigma : float) (n : Z) (w : World) :
  (n < 0 ->
   generate_dataset alpha beta sigma n w =
     (Raise (ValueError "negative dimensions are not allowed"), w) /\
   forall (df : DataFrame) (w' : World),
     generate_dataset alpha beta sigma n w <> (Ok df, w')) /\
  (forall (df : DataFrame) (w' : World),
     generate_dataset alpha beta sigma n w = (Ok df, w') ->
     0 <= n /\
     exists (dates : list string) (ys xs : list float),
       df_columns df =
         [("date", StrCol dates); ("y", FloatCol ys); ("X", FloatCol xs)] /\
       length dates = nrows df /\
       length ys = nrows df /\
       length xs = nrows df).
Proof.
  split.
  - intros Hn. rewrite generate_dataset_negative by exact Hn.
    split; [reflexivity|]. intros df w' H. discriminate H.
  - intros df w' H. destruct (Z.lt_ge_cases n 0) as [Hn|Hn].
    + rewrite generate_dataset_negative in H by exact Hn. discriminate H.
    + split; [exact Hn|].
      rewrite generate_dataset_rows in H by exact Hn.
      injection H as <- _. do 3 eexists. split; [reflexivity|].
      unfold nrows. cbn [dataset_of_rows df_index].
      now rewrite !length_map.
Qed.

Lemma generate_dataset_rejects_negative_witness :
  generate_dataset 30 0.5 10 (-3) sample_world =
    (Raise (ValueError "negative dimensions are not allowed"), sample_world) /\
  forall (df : DataFrame) (w' : World),
    generate_dataset 30 0.5 10 (-3) sample_world <> (Ok df, w').
Proof.
  apply (proj1 (generate_dataset_rejects_negative 30 0.5 10 (-3) sample_world)).
  lia.
Defined.

(** C9. For [n = 0] the generator succeeds and returns the table with the
    columns [date], [y], [X] and no rows. *)
Theorem generate_dataset_zero_rows (alpha beta sigma : float) (w : World) :
  exists w' : World,
    generate_dataset alpha beta sigma 0 w = (Ok empty_dataset, w') /\
    nrows empty_dataset = 0%nat /\
    map fst (df_columns empty_dataset) = ["date"; "y"; "X"].
Proof.
  eexists. rewrite generate_dataset_rows by lia.
  split; [reflexivity|]. split; reflexivity.
Qed.

(** C8 (amended). With the random source and the current date held fixed,
    calls with the same parameters return the same table (or the same
    error), whatever the rest of the world is. *)
Theorem generate_dataset_deterministic
    (alpha beta sigma : float) (n : Z) (w1 w2 : World) :
  rng w1 = rng w2 ->
  today w1 = today w2 ->
  (generate_dataset alpha beta sigma n w1).1 =
  (generate_dataset alpha beta sigma n w2).1.
Proof.
  intros Hr Ht. destruct (Z.lt_ge_cases n 0) as [Hn|Hn].
  - now rewrite !generate_dataset_negative.
  - rewrite !generate_dataset_rows by exact Hn. cbn [fst]. f_equal.
    unfold dataset_of_rows, kept_rows, y_row, X_row, eps_row.
    now rewrite Hr, Ht.
Qed.

Lemma generate_dataset_deterministic_witness :
  (generate_dataset 0 1 0 5 scenario_world).1 =
  (generate_dataset 0 1 0 5
     (with_upload_fault scenario_world (ClientError "AccessDenied"))).1.
Proof.
  apply (generate_dataset_deterministic 0 1 0 5 scenario_world
           (with_upload_fault scenario_world (ClientError "AccessDenied")));
    reflexivity.
Defined.

(** C8 as worded fails: the table also depends on the date read from the
    clock; the same draws on two different days give different tables. *)
Lemma generate_dataset_depends_on_date :
  rng scenario_world = rng next_day_world /\
  (generate_dataset 0 1 0 5 scenario_world).1 <>
  (generate_dataset 0 1 0 5 next_day_world).1.
Proof.
  split; [reflexivity|]. vm_compute. intros H. discriminate H.
Qed.

(** With no slope scaling, no intercept and no noise scale, the response
    of a row is its uniform draw, provided the noise draw is finite. *)
Lemma y_row_no_noise (w : World) (i : nat) (x : float) :
  uniform_src (rng w) i = x ->
  is_finite (normal_src (rng w) i) = true ->
  Prim2SF (0 + 1 * x)%float <> S754_zero true ->
  y_row 0 1 0 w i = (0 + 1 * x)%float.
Proof.
  intros Hx He Hnz. unfold y_row, X_row, eps_row. rewrite Hx.
  destruct (mul_zero_finite 0 (normal_src (rng w) i)) as [s Hs];
    [reflexivity | exact He |].
  now apply (add_zero_r _ _ s).
Qed.

(** Row [i] with the draw [x]: the response is [0 + 1 * x], evaluated. *)
Ltac no_noise w i x :=
  rewrite (y_row_no_noise w i x);
  [reflexivity | assumption | assumption | discriminate].

(** C4. With [alpha = 0], [beta = 1], [sigma = 0], [n = 5] and the uniform
    draws fixed to [-1, 0, 1, 2, 3] (the noise draws being any finite
    values), [y] equals [X] row by row, the row with [X = -1] is dropped
    and the table has the four rows with [y = 0, 1, 2, 3], in that order. *)
Theorem generate_dataset_scenario (w : World) :
  map (uniform_src (rng w)) (seq 0 5) =
    [(-1)%float; 0%float; 1%float; 2%float; 3%float] ->
  forallb is_finite (map (normal_src (rng w)) (seq 0 5)) = true ->
  map (y_row 0 1 0 w) (seq 0 5) = map (uniform_src (rng w)) (seq 0 5) /\
  generate_dataset 0 1 0 5 w =
    (Ok (mkDataFrame [1; 2; 3; 4]%nat
           [("date", StrCol (replicate 4 (str_date (today w))));
            ("y", FloatCol [0%float; 1%float; 2%float; 3%float]);
            ("X", FloatCol [0%float; 1%float; 2%float; 3%float])]),
     after_draws w 5) /\
  nrows (mkDataFrame [1; 2; 3; 4]%nat
           [("date", StrCol (replicate 4 (str_date (today w))));
            ("y", FloatCol [0%float; 1%float; 2%float; 3%float]);
            ("X", FloatCol [0%float; 1%float; 2%float; 3%float])]) = 4%nat.
Proof.
  intros HX HE. cbn [map seq] in HX, HE.
  injection HX as H0 H1 H2 H3 H4.
  cbn [forallb] in HE.
  repeat (apply andb_prop in HE; destruct HE as [? HE]).
  assert (Y0 : y_row 0 1 0 w 0 = (-1)%float) by no_noise w 0%nat (-1)%float.
  assert (Y1 : y_row 0 1 0 w 1 = 0%float) by no_noise w 1%nat 0%float.
  assert (Y2 : y_row 0 1 0 w 2 = 1%float) by no_noise w 2%nat 1%float.
  assert (Y3 : y_row 0 1 0 w 3 = 2%float) by no_noise w 3%nat 2%float.
  assert (Y4 : y_row 0 1 0 w 4 = 3%float) by no_noise w 4%nat 3%float.
  split; [|split; [|reflexivity]].
  - cbn [map seq]. now rewrite Y0, Y1, Y2, Y3, Y4, H0, H1, H2, H3, H4.
  - rewrite generate_dataset_rows by lia.
    assert (K : kept_rows 0 1 0 (Z.to_nat 5) w = [1; 2; 3; 4]%nat).
    { unfold kept_rows. change (seq 0 (Z.to_nat 5)) with [0; 1; 2; 3; 4]%nat.
      cbn [List.filter]. rewrite Y0, Y1, Y2, Y3, Y4. reflexivity. }
    rewrite K. unfold dataset_of_rows. cbn [map]. unfold X_row.
    rewrite Y1, Y2, Y3, Y4, H1, H2, H3, H4. reflexivity.
Qed.

Lemma generate_dataset_scenario_witness :
  map (y_row 0 1 0 scenario_world) (seq 0 5) =
    map (uniform_src (rng scenario_world)) (seq 0 5) /\
  generate_dataset 0 1 0 5 scenario_world =
    (Ok (mkDataFrame [1; 2; 3; 4]%nat
           [("date", StrCol (replicate 4 (str_date (today scenario_world))));
            ("y", FloatCol [0%float; 1%float; 2%float; 3%float]);
            ("X", FloatCol [0%float; 1%float; 2%float; 3%float])]),
     after_draws scenario_world 5) /\
  nrows (mkDataFrame [1; 2; 3; 4]%nat
           [("date", StrCol (replicate 4 (str_date (today scenario_world))));
            ("y", FloatCol [0%float; 1%float; 2%float; 3%float]);
            ("X", FloatCol [0%float; 1%float; 2%float; 3%float])]) = 4%nat.
Proof.
  apply (generate_dataset_scenario scenario_world); reflexivity.
Defined.

(** A response without noise scale and with intercept and slope that are
    not negative is not negative, as long as the slope is finite. *)
Lemma y_row_nonneg (alpha beta sigma : float) (w : World) (i : nat) :
  (0 <=? alpha)%float = true ->
  (0 <=? beta)%float = true ->
  is_finite beta = true ->
  (sigma =? 0)%float = true ->
  (0 <=? uniform_src (rng w) i)%float = true ->
  (uniform_src (rng w) i <? 100)%float = true ->
  is_finite (normal_src (rng w) i) = true ->
  (0 <=? y_row alpha beta sigma w i)%float = true.
Proof.
  intros Ha Hb Fb Hs Hx Hx100 He. unfold y_row, X_row, eps_row.
  apply add_nonneg.
  - apply add_nonneg; [exact Ha|].
    apply mul_nonneg; auto using below_100_finite.
  - destruct (mul_zero_finite sigma (normal_src (rng w) i) Hs He) as [sg Hz].
    now rewrite leb_zero_spec, Hz.
Qed.

(** C10 (amended). For [alpha >= 0], a finite [beta >= 0], [sigma = 0] and
    [n > 0], with the uniform draws in [[0, 100)] and finite noise draws,
    the filter drops no row: the table has exactly [n] rows, labelled
    [0 .. n-1]. *)
Theorem generate_dataset_keeps_all_rows
    (alpha beta sigma : float) (n : Z) (w : World) :
  (0 <=? alpha)%float = true ->
  (0 <=? beta)%float = true ->
  is_finite beta = true ->
  (sigma =? 0)%float = true ->
  0 < n ->
  forallb (fun x => (0 <=? x)%float && (x <? 100)%float)
          (map (uniform_src (rng w)) (seq 0 (Z.to_nat n))) = true ->
  forallb is_finite (map (normal_src (rng w)) (seq 0 (Z.to_nat n))) = true ->
  exists (df : DataFrame) (w' : World),
    generate_dataset alpha beta sigma n w = (Ok df, w') /\
    Z.of_nat (nrows df) = n /\
    df_index df = seq 0 (Z.to_nat n).
Proof.
  intros Ha Hb Fb Hs Hn HX HE.
  rewrite generate_dataset_rows by lia.
  assert (K : kept_rows alpha beta sigma (Z.to_nat n) w = seq 0 (Z.to_nat n)).
  { unfold kept_rows. apply filter_all. intros i Hi.
    rewrite forallb_forall in HX, HE.
    specialize (HX (uniform_src (rng w) i) (in_map _ _ _ Hi)).
    specialize (HE (normal_src (rng w) i) (in_map _ _ _ Hi)).
    apply andb_prop in HX. destruct HX as [HX0 HX100].
    now apply y_row_nonneg. }
  do 2 eexists. split; [reflexivity|]. rewrite K.
  unfold nrows. cbn [dataset_of_rows df_index]. rewrite length_seq.
  split; [lia|reflexivity].
Qed.

Lemma generate_dataset_keeps_all_rows_witness :
  exists (df : DataFrame) (w' : World),
    generate_dataset 30 0.5 0 3 sample_world = (Ok df, w') /\
    Z.of_nat (nrows df) = 3 /\
    df_index df = seq 0 (Z.to_nat 3).
Proof.
  apply (generate_dataset_keeps_all_rows 30 0.5 0 3 sample_world);
    try reflexivity; lia.
Defined.

(** C10 as worded fails: [beta = +inf] satisfies [beta >= 0], and with the
    draw [X = 0] the product [beta * X] is NaN, so the row is dropped. *)
Lemma generate_dataset_infinite_slope_drops_row :
  (0 <=? 0)%float = true /\
  (0 <=? infinity)%float = true /\
  (0 =? 0)%float = true /\
  0 < 1 /\
  forallb (fun x => (0 <=? x)%float && (x <? 100)%float)
          (map (uniform_src (rng zero_draw_world)) (seq 0 1)) = true /\
  (generate_dataset 0 infinity 0 1 zero_draw_world).1 = Ok empty_dataset /\
  Z.of_nat (nrows empty_dataset) <> 1.
Proof.
  repeat split; try reflexivity; try lia. vm_compute. discriminate.
Qed.

(* ===================================================================== *)
(** ** Properties of the publisher *)
(* ===================================================================== *)

Lemma rows_by_position {A B C D : Type} (f : A -> B -> C -> D)
    (la : list A) (lb : list B) (lc : list C) (da : A) (db : B) (dc : C) :
  length lb = length la ->
  length lc = length la ->
  map (fun i => f (nth i la da) (nth i lb db) (nth i lc dc))
      (seq 0 (length la)) =
  map (fun r => f r.1.1 r.1.2 r.2) (zip (zip la lb) lc).
Proof.
  revert lb lc.
  induction la as [|a la IH]; intros [|b lb] [|c lc] Hb Hc;
    try discriminate; [reflexivity|].
  cbn [length seq map zip zip_with fst snd nth].
  f_equal. rewrite <- seq_shift, map_map. cbn [nth].
  apply IH; simpl in *; lia.
Qed.

Section PublisherProperties.

Variable float_repr : float -> string.

(** The CSV text of a table with the columns [date], [y], [X]: the
    header line, then one line of three fields per row, in row order. *)
Lemma csv_text_dataset (df : DataFrame)
    (dates : list string) (ys xs : list float) :
  df_columns df =
    [("date", StrCol dates); ("y", FloatCol ys); ("X", FloatCol xs)] ->
  length dates = nrows df ->
  length ys = nrows df ->
  length xs = nrows df ->
  csv_text float_repr df true false =
    csv_line ["date"; "y"; "X"] +:+
    String.concat ""
      (map (fun r => csv_line [csv_str r.1.1;
                               csv_float float_repr r.1.2;
                               csv_float float_repr r.2])
           (zip (zip dates ys) xs)).
Proof.
  intros Hc Hd Hy Hx. unfold csv_text. rewrite Hc.
  cbn [app map fst snd csv_cell]. f_equal. f_equal.
  rewrite <- Hd.
  apply (rows_by_position
           (fun d y x => csv_line [csv_str d; csv_float float_repr y;
                                   csv_float float_repr x])); congruence.
Qed.

(** What the publisher does when the local write succeeds and the
    storage client can be built: the file is written, the upload is
    requested, and the outcome of the upload decides the rest. *)
Lemma persist_dataset_run (df : DataFrame) (bucket : string) (w : World) :
  disk_fault w = None ->
  s3_client_fault w = None ->
  let fn := dataset_filename w in
  let text := csv_text float_repr df true false in
  let key := "datasets/" +:+ fn in
  persist_dataset float_repr df bucket w =
    match s3_upload_fault w with
    | None =>
        (Ok tt,
         mkWorld (today w) (rng w) (<[fn := text]> (files w))
                 (stdout w ++ ["uploaded " +:+ fn +:+ " to s3://" +:+
                               bucket +:+ "/datasets/"])
                 (<[(bucket, key) := text]> (s3_objects w))
                 (s3_requests w ++ [(fn, bucket, key)])
                 None None None)
    | Some e =>
        if is_ClientError e
        then (Ok tt,
              mkWorld (today w) (rng w) (<[fn := text]> (files w))
                      (stdout w ++ [upload_warning]) (s3_objects w)
                      (s3_requests w ++ [(fn, bucket, key)])
                      None None (Some e))
        else (Raise e,
              mkWorld (today w) (rng w) (<[fn := text]> (files w))
                      (stdout w) (s3_objects w)
                      (s3_requests w ++ [(fn, bucket, key)])
                      None None (Some e))
    end.
Proof.
  intros Hd Hc fn text key.
  unfold persist_dataset, bind, date_today, to_csv, write_file, try_except,
    aws_client, upload_file, print.
  rewrite Hd.
  cbn [today rng files stdout s3_objects s3_requests disk_fault
       s3_client_fault s3_upload_fault].
  rewrite Hc.
  cbn [today rng files stdout s3_objects s3_requests disk_fault
       s3_client_fault s3_upload_fault].
  fold (dataset_filename w). fold fn. fold text.
  rewrite lookup_insert_eq.
  destruct (s3_upload_fault w) as [e|]; [destruct (is_ClientError e)|];
    reflexivity.
Qed.

(** An error of the local write leaves the publisher at once, whatever
    its class: the write is outside the [try] block. *)
Lemma persist_dataset_write_error (df : DataFrame) (bucket : string)
    (w : World) (e : exn) :
  disk_fault w = Some e ->
  persist_dataset float_repr df bucket w = (Raise e, w).
Proof.
  intros Hd.
  unfold persist_dataset, bind, date_today, to_csv, write_file.
  now rewrite Hd.
Qed.

(** An error of the client construction is inside the [try] block. *)
Lemma persist_dataset_client_error (df : DataFrame) (bucket : string)
    (w : World) (e : exn) :
  disk_fault w = None ->
  s3_client_fault w = Some e ->
  exists w' : World,
    persist_dataset float_repr df bucket w =
      (if is_ClientError e then Ok tt else Raise e, w') /\
    stdout w' =
      stdout w ++ (if is_ClientError e then [upload_warning] else []).
Proof.
  intros Hd Hc.
  unfold persist_dataset, bind, date_today, to_csv, write_file, try_except,
    aws_client, print.
  rewrite Hd.
  cbn [today rng files stdout s3_objects s3_requests disk_fault
       s3_client_fault s3_upload_fault].
  rewrite Hc. destruct (is_ClientError e); eexists; split;
    try reflexivity; cbn [stdout]; now rewrite ?app_nil_r.
Qed.

End PublisherProperties.

(** *** The date in the file name *)

Lemma string_length_append (s t : string) :
  String.length (s +:+ t) = (String.length s + String.length t)%nat.
Proof.
  induction s as [|c s IH]; simpl; [reflexivity|]. now rewrite IH.
Qed.

Lemma zfill_length (width bound n : nat) :
  forallb (fun k => (String.length (zfill width k) =? width)%nat)
          (seq 0 bound) = true ->
  (n < bound)%nat ->
  String.length (zfill width n) = width.
Proof.
  intros Hall Hn. rewrite forallb_forall in Hall.
  apply Nat.eqb_eq, Hall, in_seq. lia.
Qed.

Lemma zfill_4_lengths :
  forallb (fun k => (String.length (zfill 4 k) =? 4)%nat) (seq 0 10000) = true.
Proof. vm_compute. reflexivity. Qed.

Lemma zfill_2_lengths :
  forallb (fun k => (String.length (zfill 2 k) =? 2)%nat) (seq 0 100) = true.
Proof. vm_compute. reflexivity. Qed.

(** For a calendar date ([datetime.date] keeps the year within 1..9999)
    the text is ten characters long: [YYYY-MM-DD]. *)
Lemma str_date_length (d : Date) :
  (year d < 10000)%nat -> (month d < 100)%nat -> (day d < 100)%nat ->
  String.length (str_date d) = 10%nat.
Proof.
  intros Hy Hm Hd. unfold str_date. rewrite !string_length_append.
  rewrite (zfill_length 4 10000 _ zfill_4_lengths Hy).
  rewrite (zfill_length 2 100 _ zfill_2_lengths Hm).
  rewrite (zfill_length 2 100 _ zfill_2_lengths Hd).
  reflexivity.
Qed.

Section PublisherClaims.

Variable float_repr : float -> string.

(** C2. The publisher catches one class of error only, [ClientError]
    raised inside the [try] block (by the upload, or by building the
    client): it prints the warning and returns normally.  An error of
    any other class raised there propagates to the caller, and so does
    every error of the local write, which is outside the block. *)
Theorem persist_dataset_catches_only_ClientError
    (df : DataFrame) (bucket : string) (w : World) (e : exn) :
  (disk_fault w = Some e ->
   persist_dataset float_repr df bucket w = (Raise e, w)) /\
  (disk_fault w = None ->
   s3_client_fault w = Some e \/
   (s3_client_fault w = None /\ s3_upload_fault w = Some e) ->
   exists w' : World,
     persist_dataset float_repr df bucket w =
       (if is_ClientError e then Ok tt else Raise e, w') /\
     stdout w' =
       stdout w ++
       (if is_ClientError e
        then ["could not upload dataset to S3 - check AWS credentials"]
        else [])).
Proof.
  split.
  - apply persist_dataset_write_error.
  - intros Hd [Hc|[Hc Hu]].
    + now apply persist_dataset_client_error.
    + rewrite persist_dataset_run by assumption. rewrite Hu.
      destruct (is_ClientError e); eexists; split; try reflexivity;
        cbn [stdout]; now rewrite ?app_nil_r.
Qed.

(** C5. The publisher writes the table as CSV to the local file
    [regression-dataset-<date>.csv]: the header line [date,y,X], then
    one line per row in row order with the three fields of the row and
    no row label.  It then requests the upload of that file to the
    bucket under the key [datasets/regression-dataset-<date>.csv]; when
    the upload succeeds the object holds the same text. *)
Theorem persist_dataset_writes_and_uploads
    (df : DataFrame) (bucket : string) (w : World)
    (dates : list string) (ys xs : list float) :
  df_columns df =
    [("date", StrCol dates); ("y", FloatCol ys); ("X", FloatCol xs)] ->
  length dates = nrows df ->
  length ys = nrows df ->
  length xs = nrows df ->
  disk_fault w = None ->
  s3_client_fault w = None ->
  let fn := "regression-dataset-" +:+ str_date (today w) +:+ ".csv" in
  let text :=
    ("date,y,X" +:+ newline) +:+
    String.concat ""
      (map (fun r => csv_line [csv_str r.1.1;
                               csv_float float_repr r.1.2;
                               csv_float float_repr r.2])
           (zip (zip dates ys) xs)) in
  let w' := (persist_dataset float_repr df bucket w).2 in
  files w' = <[fn := text]> (files w) /\
  s3_requests w' = s3_requests w ++ [(fn, bucket, "datasets/" +:+ fn)] /\
  (s3_upload_fault w = None ->
   s3_objects w' = <[(bucket, "datasets/" +:+ fn) := text]> (s3_objects w)).
Proof.
  intros Hc Hd Hy Hx Hdisk Hclient fn text w'.
  assert (Htext : csv_text float_repr df true false = text)
    by (now rewrite (csv_text_dataset float_repr df dates ys xs)).
  subst w'. rewrite persist_dataset_run by assumption.
  fold fn. rewrite Htext.
  destruct (s3_upload_fault w) as [e|]; [destruct (is_ClientError e)|];
    cbn [snd files s3_requests s3_objects]; repeat split;
    intros; congruence.
Qed.

(** C6. When the upload fails with a storage-client error the publisher
    still returns normally, and the CSV file written before the upload
    attempt is on disk with its full text; the other files are as they
    were, the warning is printed and nothing is stored in the bucket. *)
Theorem persist_dataset_keeps_local_file
    (df : DataFrame) (bucket : string) (w : World) (e : exn) :
  disk_fault w = None ->
  s3_client_fault w = None ->
  s3_upload_fault w = Some e ->
  is_ClientError e = true ->
  let fn := "regression-dataset-" +:+ str_date (today w) +:+ ".csv" in
  exists w' : World,
    persist_dataset float_repr df bucket w = (Ok tt, w') /\
    files w' !! fn = Some (csv_text float_repr df true false) /\
    files w' = <[fn := csv_text float_repr df true false]> (files w) /\
    stdout w' =
      stdout w ++ ["could not upload dataset to S3 - check AWS credentials"] /\
    s3_objects w' = s3_objects w.
Proof.
  intros Hd Hc Hu He fn.
  rewrite persist_dataset_run by assumption. rewrite Hu, He.
  eexists. split; [reflexivity|].
  cbn [files stdout s3_objects]. fold fn.
  rewrite lookup_insert_eq. repeat split.
Qed.

End PublisherClaims.

Lemma persist_dataset_catches_only_ClientError_witness :
  (exists w' : World,
     persist_dataset integral_repr scenario_dataset AWS_S3_BUCKET
       (with_upload_fault scenario_world (ClientError "AccessDenied")) =
       (Ok tt, w') /\
     stdout w' =
       ["could not upload dataset to S3 - check AWS credentials"]) /\
  (exists w' : World,
     persist_dataset integral_repr scenario_dataset AWS_S3_BUCKET
       (with_upload_fault scenario_world NoCredentialsError) =
       (Raise NoCredentialsError, w') /\
     stdout w' = []).
Proof.
  split.
  - apply (proj2 (persist_dataset_catches_only_ClientError integral_repr
                    scenario_dataset AWS_S3_BUCKET
                    (with_upload_fault scenario_world
                       (ClientError "AccessDenied"))
                    (ClientError "AccessDenied"))).
    + reflexivity.
    + right. split; reflexivity.
  - apply (proj2 (persist_dataset_catches_only_ClientError integral_repr
                    scenario_dataset AWS_S3_BUCKET
                    (with_upload_fault scenario_world NoCredentialsError)
                    NoCredentialsError)).
    + reflexivity.
    + right. split; reflexivity.
Defined.

Lemma persist_dataset_writes_and_uploads_witness :
  let fn := "regression-dataset-2021-03-07.csv" in
  let text :=
    "date,y,X" +:+ newline +:+
    "2021-03-07,0.0,0.0" +:+ newline +:+
    "2021-03-07,1.0,1.0" +:+ newline +:+
    "2021-03-07,2.0,2.0" +:+ newline +:+
    "2021-03-07,3.0,3.0" +:+ newline in
  let w' :=
    (persist_dataset integral_repr scenario_dataset AWS_S3_BUCKET
       scenario_world).2 in
  files w' = <[fn := text]> (files scenario_world) /\
  s3_requests w' =
    [(fn, "bodywork-ml-ops-project", "datasets/" +:+ fn)] /\
  (s3_upload_fault scenario_world = None ->
   s3_objects w' =
     <[("bodywork-ml-ops-project", "datasets/" +:+ fn) := text]>
       (s3_objects scenario_world)).
Proof.
  apply (persist_dataset_writes_and_uploads integral_repr scenario_dataset
           AWS_S3_BUCKET scenario_world
           (replicate 4 "2021-03-07")
           [0%float; 1%float; 2%float; 3%float]
           [0%float; 1%float; 2%float; 3%float]); reflexivity.
Defined.

Lemma persist_dataset_keeps_local_file_witness :
  let fn := "regression-dataset-2021-03-07.csv" in
  exists w' : World,
    persist_dataset integral_repr scenario_dataset AWS_S3_BUCKET
      (with_upload_fault scenario_world (ClientError "AccessDenied")) =
      (Ok tt, w') /\
    files w' !! fn = Some (csv_text integral_repr scenario_dataset true false) /\
    files w' = <[fn := csv_text integral_repr scenario_dataset true false]> ∅ /\
    stdout w' = ["could not upload dataset to S3 - check AWS credentials"] /\
    s3_objects w' = ∅.
Proof.
  apply (persist_dataset_keeps_local_file integral_repr scenario_dataset
           AWS_S3_BUCKET
           (with_upload_fault scenario_world (ClientError "AccessDenied"))
           (ClientError "AccessDenied")); reflexivity.
Defined.

(* ===================================================================== *)
(** ** Further properties of the generator *)
(* ===================================================================== *)

(** *** NaN through the linear model *)

Lemma leb_zero_not_nan (y : float) :
  (0 <=? y)%float = true -> is_nan y = false.
Proof.
  rewrite leb_zero_spec, is_nan_spec.
  destruct (Prim2SF y); simpl; congruence.
Qed.

Lemma mul_nan_l (x y : float) : is_nan x = true -> is_nan (x * y) = true.
Proof.
  rewrite !is_nan_spec, FloatAxioms.mul_spec.
  destruct (Prim2SF x); try discriminate. reflexivity.
Qed.

Lemma mul_nan_r (x y : float) : is_nan y = true -> is_nan (x * y) = true.
Proof.
  rewrite !is_nan_spec, FloatAxioms.mul_spec.
  destruct (Prim2SF y); try discriminate.
  destruct (Prim2SF x); reflexivity.
Qed.

Lemma add_nan_l (x y : float) : is_nan x = true -> is_nan (x + y) = true.
Proof.
  rewrite !is_nan_spec, FloatAxioms.add_spec.
  destruct (Prim2SF x); try discriminate. reflexivity.
Qed.

Lemma add_nan_r (x y : float) : is_nan y = true -> is_nan (x + y) = true.
Proof.
  rewrite !is_nan_spec, FloatAxioms.add_spec.
  destruct (Prim2SF y); try discriminate.
  destruct (Prim2SF x); reflexivity.
Qed.

(** A NaN among the parameters or in the uniform draw makes the response
    of the row NaN. *)
Lemma y_row_nan (alpha beta sigma : float) (w : World) (i : nat) :
  is_nan alpha || is_nan beta || is_nan sigma || is_nan (X_row w i) = true ->
  is_nan (y_row alpha beta sigma w i) = true.
Proof.
  unfold y_row. rewrite !orb_true_iff. intros [[[H|H]|H]|H].
  - now apply add_nan_l, add_nan_l.
  - now apply add_nan_l, add_nan_r, mul_nan_l.
  - now apply add_nan_r, mul_nan_l.
  - now apply add_nan_l, add_nan_r, mul_nan_r.
Qed.

Lemma filter_none {A : Type} (p : A -> bool) (l : list A) :
  (forall a, In a l -> p a = false) -> List.filter p l = [].
Proof.
  induction l as [|a l IH]; simpl; intros H; [reflexivity|].
  rewrite (H a) by now left. apply IH. intros b Hb. apply H. now right.
Qed.

Lemma filter_seq_sorted (p : nat -> bool) (n s : nat) :
  StronglySorted lt (List.filter p (seq s n)).
Proof.
  revert s. induction n as [|n IH]; intros s; simpl; [constructor|].
  destruct (p s); [|apply IH].
  constructor; [apply IH|].
  apply List.Forall_forall. intros i Hi.
  apply List.filter_In in Hi. destruct Hi as [Hi _].
  apply in_seq in Hi. lia.
Qed.

(** X1. The generator performs no input or output: whatever [n] is, files,
    printed lines, bucket contents, upload requests, faults and the clock
    are as before; only the random source can have moved. *)
Theorem generate_dataset_no_io (alpha beta sigma : float) (n : Z) (w : World) :
  let w' := (generate_dataset alpha beta sigma n w).2 in
  files w' = files w /\
  stdout w' = stdout w /\
  s3_objects w' = s3_objects w /\
  s3_requests w' = s3_requests w /\
  today w' = today w /\
  disk_fault w' = disk_fault w /\
  s3_client_fault w' = s3_client_fault w /\
  s3_upload_fault w' = s3_upload_fault w.
Proof.
  destruct (Z.lt_ge_cases n 0) as [Hn|Hn].
  - rewrite generate_dataset_negative by exact Hn. repeat split.
  - rewrite generate_dataset_rows by exact Hn. repeat split.
Qed.

(** X2. The rows of the returned table keep the labels of their draws: the
    labels are strictly increasing (draw order is kept, no row twice) and
    all below [n]. *)
Theorem generate_dataset_labels_increasing
    (alpha beta sigma : float) (n : Z) (w : World)
    (df : DataFrame) (w' : World) :
  generate_dataset alpha beta sigma n w = (Ok df, w') ->
  StronglySorted lt (df_index df) /\
  Forall (fun i => Z.of_nat i < n) (df_index df).
Proof.
  intros H. destruct (Z.lt_ge_cases n 0) as [Hn|Hn].
  - rewrite generate_dataset_negative in H by exact Hn. discriminate H.
  - rewrite generate_dataset_rows in H by exact Hn. injection H as <- _.
    cbn [dataset_of_rows df_index]. split.
    + apply filter_seq_sorted.
    + apply List.Forall_forall. intros i Hi.
      apply kept_rows_nonneg in Hi. lia.
Qed.

Lemma generate_dataset_labels_increasing_witness :
  StronglySorted lt [1; 2; 3; 4]%nat /\
  Forall (fun i => Z.of_nat i < 5) [1; 2; 3; 4]%nat.
Proof.
  apply (generate_dataset_labels_increasing 0 1 0 5 scenario_world
           (mkDataFrame [1; 2; 3; 4]%nat
              [("date", StrCol (replicate 4 "2021-03-07"));
               ("y", FloatCol [0%float; 1%float; 2%float; 3%float]);
               ("X", FloatCol [0%float; 1%float; 2%float; 3%float])])
           (after_draws scenario_world 5)).
  vm_compute. reflexivity.
Defined.

(** X3. The returned table holds no missing value: no [y] and no [X] of a
    row that was kept is NaN, whatever the parameters and the draws. *)
Theorem generate_dataset_no_nan
    (alpha beta sigma : float) (n : Z) (w : World)
    (df : DataFrame) (w' : World) :
  generate_dataset alpha beta sigma n w = (Ok df, w') ->
  exists (dates : list string) (ys xs : list float),
    df_columns df =
      [("date", StrCol dates); ("y", FloatCol ys); ("X", FloatCol xs)] /\
    Forall (fun v => is_nan v = false) ys /\
    Forall (fun v => is_nan v = false) xs.
Proof.
  intros H. destruct (Z.lt_ge_cases n 0) as [Hn|Hn].
  - rewrite generate_dataset_negative in H by exact Hn. discriminate H.
  - rewrite generate_dataset_rows in H by exact Hn. injection H as <- _.
    do 3 eexists. split; [reflexivity|].
    split; apply List.Forall_map, List.Forall_forall; intros i Hi;
      apply kept_rows_nonneg in Hi; destruct Hi as [_ Hi].
    + now apply leb_zero_not_nan.
    + destruct (is_nan (X_row w i)) eqn:HX; [|reflexivity].
      apply leb_zero_not_nan in Hi.
      rewrite (y_row_nan alpha beta sigma w i) in Hi; [discriminate|].
      rewrite HX. apply orb_true_r.
Qed.

Lemma generate_dataset_no_nan_witness :
  exists (dates : list string) (ys xs : list float),
    df_columns scenario_dataset =
      [("date", StrCol dates); ("y", FloatCol ys); ("X", FloatCol xs)] /\
    Forall (fun v => is_nan v = false) ys /\
    Forall (fun v => is_nan v = false) xs.
Proof.
  apply (generate_dataset_no_nan 0 1 0 5 scenario_world scenario_dataset
           (after_draws scenario_world 5)).
  vm_compute. reflexivity.
Defined.

(** X4. A NaN among [alpha], [beta], [sigma] is not refused: for every row
    count that is not negative the generator returns the table with the
    three columns and no rows. *)
Theorem generate_dataset_nan_parameter
    (alpha beta sigma : float) (n : Z) (w : World) :
  is_nan alpha || is_nan beta || is_nan sigma = true ->
  0 <= n ->
  (generate_dataset alpha beta sigma n w).1 = Ok empty_dataset.
Proof.
  intros Hnan Hn. rewrite generate_dataset_rows by exact Hn. cbn [fst].
  assert (K : kept_rows alpha beta sigma (Z.to_nat n) w = []).
  { unfold kept_rows. apply filter_none. intros i _.
    destruct (0 <=? y_row alpha beta sigma w i)%float eqn:Hy; [|reflexivity].
    apply leb_zero_not_nan in Hy.
    rewrite (y_row_nan alpha beta sigma w i) in Hy; [discriminate|].
    rewrite Hnan. reflexivity. }
  now rewrite K.
Qed.

Lemma generate_dataset_nan_parameter_witness :
  (generate_dataset 30 nan 10 3 sample_world).1 = Ok empty_dataset.
Proof.
  apply (generate_dataset_nan_parameter 30 nan 10 3 sample_world);
    [reflexivity | lia].
Defined.

(** X5. Two calls in a row read consecutive draws: after a call for [n] rows
    the next call builds its rows from the draws [n], [n+1], ... of either
    kind, so without reseeding it does not repeat the first table. *)
Theorem generate_dataset_twice
    (alpha beta sigma : float) (n : Z)
    (alpha2 beta2 sigma2 : float) (m : Z) (w : World) :
  0 <= n ->
  0 <= m ->
  let u := fun i => uniform_src (rng w) (Z.to_nat n + i)%nat in
  let e := fun i => normal_src (rng w) (Z.to_nat n + i)%nat in
  let y := fun i => (alpha2 + beta2 * u i + sigma2 * e i)%float in
  let kept := List.filter (fun i => (0 <=? y i)%float) (seq 0 (Z.to_nat m)) in
  ((generate_dataset alpha beta sigma n ;;;
    generate_dataset alpha2 beta2 sigma2 m) w).1 =
  Ok (mkDataFrame kept
        [("date", StrCol (map (fun _ => str_date (today w)) kept));
         ("y", FloatCol (map y kept));
         ("X", FloatCol (map u kept))]).
Proof.
  intros Hn Hm u e y kept. unfold bind.
  rewrite generate_dataset_rows by exact Hn.
  rewrite generate_dataset_rows by exact Hm.
  reflexivity.
Qed.

Lemma generate_dataset_twice_witness :
  ((generate_dataset 0 1 0 2 ;;; generate_dataset 0 1 0 3) scenario_world).1 =
  Ok (mkDataFrame [0; 1; 2]%nat
        [("date", StrCol (replicate 3 "2021-03-07"));
         ("y", FloatCol [1%float; 2%float; 3%float]);
         ("X", FloatCol [1%float; 2%float; 3%float])]).
Proof.
  refine (eq_trans (generate_dataset_twice 0 1 0 2 0 1 0 3 scenario_world
                      _ _) _); [lia | lia |].
  vm_compute. reflexivity.
Defined.

(* ===================================================================== *)
(** ** Further properties of the publisher *)
(* ===================================================================== *)

Section PublisherFrame.

Variable float_repr : float -> string.

(** What the publisher does when the client cannot be built: the file is
    written, no upload is requested. *)
Lemma persist_dataset_client_run (df : DataFrame) (bucket : string)
    (w : World) (e : exn) :
  disk_fault w = None ->
  s3_client_fault w = Some e ->
  persist_dataset float_repr df bucket w =
    (if is_ClientError e then Ok tt else Raise e,
     mkWorld (today w) (rng w)
             (<[dataset_filename w := csv_text float_repr df true false]>
                (files w))
             (stdout w ++ (if is_ClientError e then [upload_warning] else []))
             (s3_objects w) (s3_requests w) None (Some e)
             (s3_upload_fault w)).
Proof.
  intros Hd Hc.
  unfold persist_dataset, bind, date_today, to_csv, write_file, try_except,
    aws_client, print.
  rewrite Hd.
  cbn [today rng files stdout s3_objects s3_requests disk_fault
       s3_client_fault s3_upload_fault].
  rewrite Hc. fold (dataset_filename w).
  destruct (is_ClientError e); [reflexivity|].
  now rewrite app_nil_r.
Qed.


Lemma persist_dataset_outcome (df : DataFrame) (bucket : string) (w : World) :
  (persist_dataset float_repr df bucket w).1 = publication_outcome w.
Proof.
  unfold publication_outcome.
  destruct (disk_fault w) as [e|] eqn:Hd.
  - now rewrite (persist_dataset_write_error float_repr df bucket w e).
  - destruct (s3_client_fault w) as [e|] eqn:Hc.
    + now rewrite (persist_dataset_client_run df bucket w e).
    + rewrite persist_dataset_run by assumption.
      destruct (s3_upload_fault w) as [e|]; [destruct (is_ClientError e)|];
        reflexivity.
Qed.

(** X6. The publisher never touches the random source or the clock, and of
    all local files and all stored objects it can change one each: the
    file of the day and the object under the key of the day in the given
    bucket.  This holds for every outcome. *)
Theorem persist_dataset_frame (df : DataFrame) (bucket : string) (w : World) :
  let w' := (persist_dataset float_repr df bucket w).2 in
  rng w' = rng w /\
  today w' = today w /\
  (forall path : string,
     path <> "regression-dataset-" +:+ str_date (today w) +:+ ".csv" ->
     files w' !! path = files w !! path) /\
  (forall bk : string * string,
     bk <> (bucket,
            "datasets/" +:+
            ("regression-dataset-" +:+ str_date (today w) +:+ ".csv")) ->
     s3_objects w' !! bk = s3_objects w !! bk).
Proof.
  fold (dataset_filename w).
  destruct (disk_fault w) as [e|] eqn:Hd.
  - rewrite (persist_dataset_write_error float_repr df bucket w e Hd).
    repeat split.
  - destruct (s3_client_fault w) as [e|] eqn:Hc.
    + rewrite (persist_dataset_client_run df bucket w e Hd Hc).
      cbn [snd rng today files s3_objects]. repeat split.
      intros path Hp. now rewrite lookup_insert_ne.
    + rewrite persist_dataset_run by assumption.
      destruct (s3_upload_fault w) as [e|]; [destruct (is_ClientError e)|];
        cbn [snd rng today files s3_objects]; repeat split;
        intros k Hk; now rewrite lookup_insert_ne.
Qed.

(** X7. When nothing fails the publisher returns normally, prints the one
    line [uploaded <file> to s3://<bucket>/datasets/], and the object
    stored under the key of the day holds exactly the text of the local
    file. *)
Theorem persist_dataset_success (df : DataFrame) (bucket : string)
    (w : World) :
  disk_fault w = None ->
  s3_client_fault w = None ->
  s3_upload_fault w = None ->
  let fn := "regression-dataset-" +:+ str_date (today w) +:+ ".csv" in
  exists w' : World,
    persist_dataset float_repr df bucket w = (Ok tt, w') /\
    stdout w' =
      stdout w ++
      ["uploaded " +:+ fn +:+ " to s3://" +:+ bucket +:+ "/datasets/"] /\
    files w' !! fn = Some (csv_text float_repr df true false) /\
    s3_objects w' !! (bucket, "datasets/" +:+ fn) = files w' !! fn.
Proof.
  intros Hd Hc Hu fn.
  rewrite persist_dataset_run by assumption. rewrite Hu.
  eexists. split; [reflexivity|].
  cbn [stdout files s3_objects]. fold (dataset_filename w). fold fn.
  now rewrite !lookup_insert_eq.
Qed.

(** X8. When the storage client cannot be built, whatever the class of the
    error, the local file has been written all the same, no upload is
    requested and the bucket is left as it was. *)
Theorem persist_dataset_client_failure (df : DataFrame) (bucket : string)
    (w : World) (e : exn) :
  disk_fault w = None ->
  s3_client_fault w = Some e ->
  let fn := "regression-dataset-" +:+ str_date (today w) +:+ ".csv" in
  let w' := (persist_dataset float_repr df bucket w).2 in
  files w' !! fn = Some (csv_text float_repr df true false) /\
  s3_requests w' = s3_requests w /\
  s3_objects w' = s3_objects w.
Proof.
  intros Hd Hc fn w'. subst w'.
  rewrite (persist_dataset_client_run df bucket w e Hd Hc).
  cbn [snd files s3_requests s3_objects]. fold (dataset_filename w). fold fn.
  now rewrite lookup_insert_eq.
Qed.


End PublisherFrame.

Lemma persist_dataset_success_witness :
  let fn := "regression-dataset-2021-03-07.csv" in
  exists w' : World,
    persist_dataset integral_repr scenario_dataset AWS_S3_BUCKET used_world =
      (Ok tt, w') /\
    stdout w' =
      ["started";
       "uploaded " +:+ fn +:+ " to s3://" +:+ AWS_S3_BUCKET +:+ "/datasets/"] /\
    files w' !! fn = Some (csv_text integral_repr scenario_dataset true false) /\
    s3_objects w' !! (AWS_S3_BUCKET, "datasets/" +:+ fn) = files w' !! fn.
Proof.
  apply (persist_dataset_success integral_repr scenario_dataset AWS_S3_BUCKET
           used_world); reflexivity.
Defined.

Lemma persist_dataset_client_failure_witness :
  let fn := "regression-dataset-2021-03-07.csv" in
  let w' :=
    (persist_dataset integral_repr scenario_dataset AWS_S3_BUCKET
       (with_client_fault used_world NoCredentialsError)).2 in
  files w' !! fn = Some (csv_text integral_repr scenario_dataset true false) /\
  s3_requests w' = [] /\
  s3_objects w' = s3_objects used_world.
Proof.
  apply (persist_dataset_client_failure integral_repr scenario_dataset
           AWS_S3_BUCKET (with_client_fault used_world NoCredentialsError)
           NoCredentialsError); reflexivity.
Defined.


(** *** One file and one key per calendar day *)

Lemma append_inj_length (s1 s2 t1 t2 : string) :
  String.length s1 = String.length s2 ->
  s1 +:+ t1 = s2 +:+ t2 ->
  s1 = s2 /\ t1 = t2.
Proof.
  revert s2. induction s1 as [|c s1 IH]; intros [|c2 s2] Hlen H;
    try discriminate; simpl in *.
  - now split.
  - injection H as -> H. injection Hlen as Hlen.
    destruct (IH s2 Hlen H) as [-> ->]. now split.
Qed.

(** Reading back the digits of a padded number gives the number. *)
Lemma zfill_inj (width bound a b : nat) :
  forallb (fun k => (digits_value (zfill width k) =? k)%nat)
          (seq 0 bound) = true ->
  (a < bound)%nat -> (b < bound)%nat ->
  zfill width a = zfill width b -> a = b.
Proof.
  intros Hall Ha Hb H. rewrite forallb_forall in Hall.
  assert (Ra : digits_value (zfill width a) = a)
    by (apply Nat.eqb_eq, Hall, in_seq; lia).
  assert (Rb : digits_value (zfill width b) = b)
    by (apply Nat.eqb_eq, Hall, in_seq; lia).
  congruence.
Qed.

Lemma zfill_4_reads_back :
  forallb (fun k => (digits_value (zfill 4 k) =? k)%nat) (seq 0 10000) = true.
Proof. vm_compute. reflexivity. Qed.

Lemma zfill_2_reads_back :
  forallb (fun k => (digits_value (zfill 2 k) =? k)%nat) (seq 0 100) = true.
Proof. vm_compute. reflexivity. Qed.

Lemma valid_date_bounds (d : Date) :
  valid_date d ->
  (year d < 10000)%nat /\ (month d < 100)%nat /\ (day d < 100)%nat.
Proof.
  intros ([_ Hy] & Hm & Hd). split; [|lia].
  apply Nat.lt_succ_r in Hy. exact Hy.
Qed.

Lemma str_date_inj (d1 d2 : Date) :
  valid_date d1 -> valid_date d2 -> str_date d1 = str_date d2 -> d1 = d2.
Proof.
  intros V1 V2 H.
  destruct (valid_date_bounds d1 V1) as (Hy1 & Hm1 & Hd1).
  destruct (valid_date_bounds d2 V2) as (Hy2 & Hm2 & Hd2).
  unfold str_date in H.
  apply append_inj_length in H;
    [|now rewrite !(zfill_length 4 10000 _ zfill_4_lengths)].
  destruct H as [Hy H]. cbn [String.append] in H. injection H as H.
  change (zfill 2 (month d1) +:+ "-" +:+ zfill 2 (day d1) =
          zfill 2 (month d2) +:+ "-" +:+ zfill 2 (day d2)) in H.
  apply append_inj_length in H;
    [|now rewrite !(zfill_length 2 100 _ zfill_2_lengths)].
  destruct H as [Hm H]. cbn [String.append] in H. injection H as Hd.
  change (zfill 2 (day d1) = zfill 2 (day d2)) in Hd.
  apply (zfill_inj 4 10000 _ _ zfill_4_reads_back Hy1 Hy2) in Hy.
  apply (zfill_inj 2 100 _ _ zfill_2_reads_back Hm1 Hm2) in Hm.
  apply (zfill_inj 2 100 _ _ zfill_2_reads_back Hd1 Hd2) in Hd.
  destruct d1, d2; simpl in *; congruence.
Qed.

Lemma dataset_filename_inj (d1 d2 : Date) :
  valid_date d1 -> valid_date d2 ->
  "regression-dataset-" +:+ str_date d1 +:+ ".csv" =
  "regression-dataset-" +:+ str_date d2 +:+ ".csv" ->
  d1 = d2.
Proof.
  intros V1 V2 H. cbn [String.append] in H. repeat injection H as H.
  change (str_date d1 +:+ ".csv" = str_date d2 +:+ ".csv") in H.
  apply append_inj_length in H.
  - now apply str_date_inj.
  - destruct (valid_date_bounds d1 V1) as (? & ? & ?).
    destruct (valid_date_bounds d2 V2) as (? & ? & ?).
    now rewrite !str_date_length.
Qed.

Section PublisherDays.

Variable float_repr : float -> string.

(** X10. The file and the object of another calendar day are never
    overwritten: publishing on one day leaves the local file and the
    stored object named after any other day as they were. *)
Theorem persist_dataset_keeps_other_days (df : DataFrame) (bucket : string)
    (w : World) (d : Date) :
  valid_date (today w) ->
  valid_date d ->
  d <> today w ->
  let other := "regression-dataset-" +:+ str_date d +:+ ".csv" in
  let w' := (persist_dataset float_repr df bucket w).2 in
  files w' !! other = files w !! other /\
  s3_objects w' !! (bucket, "datasets/" +:+ other) =
    s3_objects w !! (bucket, "datasets/" +:+ other).
Proof.
  intros Vw Vd Hne other w'.
  destruct (persist_dataset_frame float_repr df bucket w)
    as (_ & _ & Hfiles & Hobjects).
  assert (Hother : other <>
            "regression-dataset-" +:+ str_date (today w) +:+ ".csv").
  { intros H. apply Hne. now apply dataset_filename_inj. }
  split.
  - now apply Hfiles.
  - apply Hobjects. intros H. apply Hother.
    injection H as H.
    change (str_date d +:+ ".csv" = str_date (today w) +:+ ".csv") in H.
    unfold other. now rewrite H.
Qed.

End PublisherDays.

Lemma persist_dataset_keeps_other_days_witness :
  let other := "regression-dataset-2021-03-06.csv" in
  let w' :=
    (persist_dataset integral_repr scenario_dataset AWS_S3_BUCKET
       used_world).2 in
  files w' !! other = Some "date,y,X" /\
  s3_objects w' !! (AWS_S3_BUCKET, "datasets/" +:+ other) = Some "date,y,X".
Proof.
  apply (persist_dataset_keeps_other_days integral_repr scenario_dataset
           AWS_S3_BUCKET used_world (mkDate 2021 3 6)).
  - repeat split; apply Nat.leb_le; reflexivity.
  - repeat split; apply Nat.leb_le; reflexivity.
  - discriminate.
Defined.

(* ===================================================================== *)
(** ** The whole script *)
(* ===================================================================== *)

(** *** The date field needs no quoting *)








Lemma N_nonneg : 0 <= N.
Proof. unfold N. lia. Qed.

Section Script.

Variable float_repr : float -> string.

(** The script publishes the table of the kept rows in the world left by
    the draws. *)
Lemma main_run (w : World) :
  main float_repr w =
    persist_dataset float_repr
      (dataset_of_rows ALPHA BETA SIGMA w
         (kept_rows ALPHA BETA SIGMA (Z.to_nat N) w))
      AWS_S3_BUCKET (after_draws w (Z.to_nat N)).
Proof.
  unfold main, bind. now rewrite (generate_dataset_rows _ _ _ _ _ N_nonneg).
Qed.

(** X11. The script never fails in the generator.  Its outcome is decided by
    the faults of the environment alone: an error of the local write is
    raised; otherwise the first error of the storage client (building it,
    then the upload) is raised unless it is a [ClientError]; in every
    other case, a failed upload with a [ClientError] included, the script
    ends normally. *)
Theorem main_outcome (w : World) :
  (main float_repr w).1 =
  match disk_fault w with
  | Some e => Raise e
  | None =>
      match s3_client_fault w with
      | Some e => if is_ClientError e then Ok tt else Raise e
      | None =>
          match s3_upload_fault w with
          | Some e => if is_ClientError e then Ok tt else Raise e
          | None => Ok tt
          end
      end
  end.
Proof.
  rewrite main_run, persist_dataset_outcome. reflexivity.
Qed.

(** X12. Whatever the outcome, one run of the script takes exactly [N = 1440]
    values from the uniform sampler and as many from the normal one. *)
Theorem main_draws (w : World) :
  N = 1440 /\
  rng (main float_repr w).2 =
    mkRandomState (fun i => uniform_src (rng w) (Z.to_nat N + i)%nat)
                  (fun i => normal_src (rng w) (Z.to_nat N + i)%nat).
Proof.
  split; [reflexivity|]. rewrite main_run.
  destruct (persist_dataset_frame float_repr
              (dataset_of_rows ALPHA BETA SIGMA w
                 (kept_rows ALPHA BETA SIGMA (Z.to_nat N) w))
              AWS_S3_BUCKET (after_draws w (Z.to_nat N))) as (Hr & _).
  rewrite Hr. reflexivity.
Qed.



End Script.

